(** * ppb.camera: the game-unit / pixel camera of pursuedpybear

    A shallow embedding of [src/ppb/camera.py] and the properties of its two
    camera classes, [Camera] and [OldCamera].

    Numbers.  Python's [int] is [Z].  Python's [float] / [Real] is read in
    two ways.  In [Camera] and [OldCamera] it is the canonical rationals
    [Qc]: arithmetic is exact and never overflows, and [Qc] has Leibniz
    equality, which plays the role of Python's [==] on numbers.  This is
    the exact-arithmetic reading of the program, used for the control flow
    and for properties that do not depend on rounding.  In [Camera64] it is
    IEEE 754 binary64 ([SpecFloat] with a 53-bit significand): division
    rounds to nearest even and overflows to infinity, and [int()] raises on
    infinities and NaN, as in the interpreter.  Statements about what the
    dimension solver stores or raises on particular numbers are made there.

    Effects.  A Python call either returns a value or raises; [result]
    records which.  Methods that assign to [self] are state transformers
    that return the final object together with the outcome, so that the
    assignments made before a [raise] stay visible. *)

From Stdlib Require Import ZArith QArith Qcanon Qround String List Lia Lqa Bool.
From Stdlib Require Import SpecFloat.
Import ListNotations.

Set Implicit Arguments.

(** ** Exceptions and outcomes *)

Inductive exn : Type :=
| ValueError (msg : string)
| ZeroDivisionError
| TypeError
| IndexError
| OverflowError.

Inductive result (A : Type) : Type :=
| Ok (a : A)
| Raise (e : exn).

Arguments Ok {A} a.
Arguments Raise {A} e.

(** A method body over an object of type [S]: the object after the call and
    the outcome of the call. *)
Definition M (S A : Type) : Type := S -> S * result A.

Definition rbind {A B : Type} (c : result A) (k : A -> result B) : result B :=
  match c with
  | Ok a => k a
  | Raise e => Raise e
  end.

Definition mret {S A : Type} (a : A) : M S A := fun s => (s, Ok a).

Definition mbind {S A B : Type} (c : M S A) (k : A -> M S B) : M S B :=
  fun s =>
    match c s with
    | (s', Ok a) => k a s'
    | (s', Raise e) => (s', Raise e)
    end.

(** Sequencing of fallible expressions ([res]) and of method bodies
    ([meth]). *)
Declare Scope res_scope.
Delimit Scope res_scope with res.
Declare Scope meth_scope.
Delimit Scope meth_scope with meth.

Notation "x <- c ;; k" := (rbind c (fun x => k))
  (at level 61, c at next level, right associativity) : res_scope.

Notation "x <- c ;; k" := (mbind c (fun x => k))
  (at level 61, c at next level, right associativity) : meth_scope.
Notation "' pat <- c ;; k" := (mbind c (fun x => let 'pat := x in k))
  (at level 61, pat pattern, c at next level, right associativity)
  : meth_scope.
Notation "c ;;; k" := (mbind c (fun _ => k))
  (at level 61, right associativity) : meth_scope.

Open Scope res_scope.

(** [raise e] inside a method. *)
Definition raise {S A : Type} (e : exn) : M S A := fun s => (s, Raise e).

(** Reading an attribute of [self]. *)
Definition gets {S A : Type} (f : S -> A) : M S A := fun s => (s, Ok (f s)).

(** Assigning to an attribute of [self]. *)
Definition modify {S : Type} (f : S -> S) : M S unit := fun s => (f s, Ok tt).

(** A side-effect free expression evaluated inside a method. *)
Definition lift {S A : Type} (r : result A) : M S A := fun s => (s, r).

(** ** Numbers *)

Open Scope Qc_scope.

(** An [int] used where a real number is expected. *)
Definition of_int (z : Z) : Qc := Q2Qc (inject_Z z).

(** True division [a / b]: raises [ZeroDivisionError] on a zero divisor. *)
Definition truediv (a b : Qc) : result Qc :=
  if Qc_eq_dec b 0 then Raise ZeroDivisionError else Ok (a / b).

(** [int(q)]: truncation toward zero. *)
Definition int (q : Qc) : Z := Z.quot (Qnum q) (Zpos (Qden q)).

(** [floor(q)], the rounding the specification speaks of. *)
Definition floor (q : Qc) : Z := Qfloor q.

(** [a <= b] as a Python [bool]. *)
Definition leb (a b : Qc) : bool := Qle_bool a b.

(** An operand that must be a number: [None] in arithmetic is a
    [TypeError]. *)
Definition number {A : Type} (o : option A) : result A :=
  match o with
  | Some a => Ok a
  | None => Raise TypeError
  end.

(** [a and b] on outcomes: [b] is evaluated only when [a] is true. *)
Definition and_then (a b : result bool) : result bool :=
  x <- a ;; if x then b else Ok false.

(** The chained comparison [a <= b <= c]: [c] is evaluated only when
    [a <= b] holds. *)
Definition chain_le (a : result Qc) (b : Qc) (c : result Qc) : result bool :=
  lo <- a ;;
  if leb lo b then (hi <- c ;; Ok (leb b hi)) else Ok false.

(** ** Vectors *)

(** Modelled from the spec: the external [ppb_vector.Vector], an immutable
    pair of numbers with component access, scalar multiplication and scalar
    division. *)
Record Vector : Type := mkVector { x : Qc; y : Qc }.

Definition vscale (v : Vector) (k : Qc) : Vector :=
  mkVector (x v * k) (y v * k).

Definition vdiv (v : Vector) (k : Qc) : result Vector :=
  a <- truediv (x v) k ;;
  b <- truediv (y v) k ;;
  Ok (mkVector a b).

(** ** Sprites *)

(** Modelled from the spec: the sides of a sprite, which [ppb.sprites]
    exposes as [left], [right], [top] and [bottom] in game units. *)
Module Sprite.
Record t : Type := mk { left : Qc; right : Qc; top : Qc; bottom : Qc }.
End Sprite.

(** ** The current camera *)

Module Camera.
Section WithRenderer.

(** The renderer is an opaque collaborator: the camera only stores it. *)
Variable Renderer : Type.

Record t : Type := mk {
  renderer : Renderer;
  target_game_unit_width : Qc;
  viewport_dimensions : Z * Z;
  pixel_ratio : option Z;
  _width : option Qc;
  _height : option Qc;
  position : Vector
}.

Definition set_pixel_ratio (v : option Z) (self : t) : t :=
  mk (renderer self) (target_game_unit_width self) (viewport_dimensions self)
     v (_width self) (_height self) (position self).

Definition set__width (v : option Qc) (self : t) : t :=
  mk (renderer self) (target_game_unit_width self) (viewport_dimensions self)
     (pixel_ratio self) v (_height self) (position self).

Definition set__height (v : option Qc) (self : t) : t :=
  mk (renderer self) (target_game_unit_width self) (viewport_dimensions self)
     (pixel_ratio self) (_width self) v (position self).

Definition set_position (v : Vector) (self : t) : t :=
  mk (renderer self) (target_game_unit_width self) (viewport_dimensions self)
     (pixel_ratio self) (_width self) (_height self) v.

(** Cameras never render: their logical size is the class constant 0. *)
Definition size : Z := 0%Z.

Definition _set_dimensions (target_width target_height : option Qc)
  : M t unit :=
  ('(viewport_width, viewport_height) <- gets viewport_dimensions ;;
  '(game_unit_target, pixel_value) <-
    match target_width, target_height with
    | Some _, Some _ =>
        raise (ValueError "Can only set one dimension at a time.")
    | Some tw, None => mret (tw, viewport_width)
    | None, Some th => mret (th, viewport_height)
    | None, None =>
        raise (ValueError "Must set target_width or target_height")
    end ;;
  q <- lift (truediv (of_int pixel_value) game_unit_target) ;;
  modify (set_pixel_ratio (Some (int q))) ;;;
  r <- gets pixel_ratio ;;
  r <- lift (number r) ;;
  w <- lift (truediv (of_int viewport_width) (of_int r)) ;;
  modify (set__width (Some w)) ;;;
  r <- gets pixel_ratio ;;
  r <- lift (number r) ;;
  h <- lift (truediv (of_int viewport_height) (of_int r)) ;;
  modify (set__height (Some h)))%meth.

(** [Camera(renderer, target_game_unit_width, viewport_dimensions)]: the
    object exists only when [__init__] returns. *)
Definition __init__ (renderer : Renderer) (target_game_unit_width : Qc)
    (viewport_dimensions : Z * Z) : result t :=
  let self :=
    mk renderer target_game_unit_width viewport_dimensions None None None
       (mkVector 0 0) in
  match _set_dimensions (Some target_game_unit_width) None self with
  | (self', Ok _) => Ok self'
  | (_, Raise e) => Raise e
  end.

(** The [width] property where a number is needed: the getter returns
    [self._width] as it is, and a [None] there, before any solve has
    completed, is a [TypeError] in the arithmetic that uses it. *)
Definition width (self : t) : result Qc := number (_width self).

Definition set_width (target_width : Qc) : M t unit :=
  _set_dimensions (Some target_width) None.

(** The [height] property, read in the same way. *)
Definition height (self : t) : result Qc := number (_height self).

Definition set_height (target_height : Qc) : M t unit :=
  _set_dimensions None (Some target_height).

Definition bottom (self : t) : result Qc :=
  h <- height self ;; Ok (y (position self) - h / of_int 2).

Definition left (self : t) : result Qc :=
  w <- width self ;; Ok (x (position self) - w / of_int 2).

Definition right (self : t) : result Qc :=
  w <- width self ;; Ok (x (position self) + w / of_int 2).

Definition top (self : t) : result Qc :=
  h <- height self ;; Ok (y (position self) + h / of_int 2).

Definition top_left (self : t) : result Vector :=
  l <- left self ;; t <- top self ;; Ok (mkVector l t).

Definition top_right (self : t) : result Vector :=
  r <- right self ;; t <- top self ;; Ok (mkVector r t).

Definition bottom_left (self : t) : result Vector :=
  l <- left self ;; b <- bottom self ;; Ok (mkVector l b).

Definition bottom_right (self : t) : result Vector :=
  r <- right self ;; b <- bottom self ;; Ok (mkVector r b).

Definition point_is_visible (self : t) (point : Vector) : result bool :=
  and_then (chain_le (left self) (x point) (right self))
           (chain_le (bottom self) (y point) (top self)).

Definition translate_point_to_screen (self : t) (point : Vector)
  : result Vector :=
  l <- left self ;;
  t <- top self ;;
  r <- number (pixel_ratio self) ;;
  Ok (vscale (mkVector (x point - l) (t - y point)) (of_int r)).

(** The validation error of a dimension-set call. *)
Definition is_ValueError {A : Type} (r : result A) : Prop :=
  exists msg, r = Raise (ValueError msg).

(** A target is non-degenerate on an axis with [pixel_value] pixels when
    neither division of the solve has a zero divisor: the target is not
    zero and the integer ratio is not zero. *)
Definition nondegenerate (pixel_value : Z) (target : Qc) : Prop :=
  target <> 0 /\ int (of_int pixel_value / target) <> 0%Z.

(** The object a completed solve with ratio [r] leaves behind. *)
Definition solved_state (self : t) (r : Z) : t :=
  let '(vw, vh) := viewport_dimensions self in
  set__height (Some (of_int vh / of_int r))
    (set__width (Some (of_int vw / of_int r))
       (set_pixel_ratio (Some r) self)).

(** The three ways a call with one target ends, on the axis whose pixel
    count is [pixel_value]: this summary is what [_set_dimensions] is
    proved to compute, case by case. *)
Definition one_target_outcome (self : t) (pixel_value : Z) (target : Qc)
  : t * result unit :=
  if Qc_eq_dec target 0 then (self, Raise ZeroDivisionError)
  else
    let r := int (of_int pixel_value / target) in
    if Z.eq_dec r 0
    then (set_pixel_ratio (Some 0%Z) self, Raise ZeroDivisionError)
    else (solved_state self r, Ok tt).

End WithRenderer.
End Camera.

(** ** The legacy camera *)

Module OldCamera.

(** [OldCamera] is a sprite of size 0 with a viewport and a caller-chosen
    pixel ratio. *)
Record t : Type := mk {
  size : Z;
  position : Vector;
  viewport_origin : Vector;
  _viewport_width : Z;
  _viewport_height : Z;
  viewport_offset : Vector;
  pixel_ratio : Qc
}.

Definition set__viewport_width (v : Z) (self : t) : t :=
  mk (size self) (position self) (viewport_origin self) v
     (_viewport_height self) (viewport_offset self) (pixel_ratio self).

Definition set__viewport_height (v : Z) (self : t) : t :=
  mk (size self) (position self) (viewport_origin self)
     (_viewport_width self) v (viewport_offset self) (pixel_ratio self).

Definition set_viewport_offset (v : Vector) (self : t) : t :=
  mk (size self) (position self) (viewport_origin self)
     (_viewport_width self) (_viewport_height self) v (pixel_ratio self).

Definition set_viewport_origin (v : Vector) (self : t) : t :=
  mk (size self) (position self) v (_viewport_width self)
     (_viewport_height self) (viewport_offset self) (pixel_ratio self).

Definition viewport_width (self : t) : Z := _viewport_width self.

Definition viewport_height (self : t) : Z := _viewport_height self.

(** [viewport[i]] on a sequence. *)
Definition item (viewport : list Z) (i : nat) : result Z :=
  match nth_error viewport i with
  | Some v => Ok v
  | None => Raise IndexError
  end.

Definition default_viewport : list Z := [0; 0; 800; 600]%Z.
Definition default_pixel_ratio : Qc := of_int 64.

Definition __init__ (viewport : list Z) (pixel_ratio : Qc) : result t :=
  v0 <- item viewport 0 ;;
  v1 <- item viewport 1 ;;
  v2 <- item viewport 2 ;;
  v3 <- item viewport 3 ;;
  Ok (mk 0 (mkVector 0 0) (mkVector (of_int v0) (of_int v1)) v2 v3
         (mkVector (of_int v2 / of_int 2) (of_int v3 / of_int 2))
         pixel_ratio).

Definition frame_height (self : t) : result Qc :=
  truediv (of_int (viewport_height self)) (pixel_ratio self).

Definition frame_width (self : t) : result Qc :=
  truediv (of_int (viewport_width self)) (pixel_ratio self).

Definition half_height (self : t) : result Qc :=
  h <- frame_height self ;; Ok (h / of_int 2).

Definition half_width (self : t) : result Qc :=
  w <- frame_width self ;; Ok (w / of_int 2).

Definition frame_top (self : t) : result Qc :=
  h <- half_height self ;; Ok (y (position self) + h).

Definition frame_bottom (self : t) : result Qc :=
  h <- half_height self ;; Ok (y (position self) - h).

Definition frame_left (self : t) : result Qc :=
  w <- half_width self ;; Ok (x (position self) - w).

Definition frame_right (self : t) : result Qc :=
  w <- half_width self ;; Ok (x (position self) + w).

(** The [viewport_width] setter. *)
Definition set_viewport_width (value : Z) (self : t) : t :=
  let self := set__viewport_width value self in
  set_viewport_offset
    (mkVector (of_int value / of_int 2)
              (of_int (viewport_height self) / of_int 2)) self.

(** The [viewport_height] setter. *)
Definition set_viewport_height (value : Z) (self : t) : t :=
  let self := set__viewport_height value self in
  set_viewport_offset
    (mkVector (of_int (viewport_width self) / of_int 2)
              (of_int value / of_int 2)) self.

Definition point_in_viewport (self : t) (point : Vector) : bool :=
  let '(px, py) := (x point, y point) in
  let '(vpx, vpy) := (x (viewport_origin self), y (viewport_origin self)) in
  let vpw := of_int (viewport_width self) in
  let vph := of_int (viewport_height self) in
  (leb vpx px && leb px (vpw + vpx)) && (leb vpy py && leb py (vph + vpy)).

Definition in_frame (self : t) (sprite : Sprite.t) : result bool :=
  and_then (l <- frame_left self ;; Ok (leb l (Sprite.right sprite)))
 (and_then (r <- frame_right self ;; Ok (leb (Sprite.left sprite) r))
 (and_then (t <- frame_top self ;; Ok (leb (Sprite.bottom sprite) t))
           (b <- frame_bottom self ;; Ok (leb b (Sprite.top sprite))))).

Definition translate_to_frame (self : t) (point : Vector) : result Vector :=
  scaled <- vdiv point (pixel_ratio self) ;;
  l <- frame_left self ;;
  t <- frame_top self ;;
  Ok (mkVector (l + x scaled) (t - y scaled)).

Definition translate_to_viewport (self : t) (point : Vector)
  : result Vector :=
  l <- frame_left self ;;
  t <- frame_top self ;;
  Ok (vscale (mkVector (x point - l) (t - y point)) (pixel_ratio self)).

(** The cache invariant of the specification. *)
Definition offset_in_sync (self : t) : Prop :=
  viewport_offset self =
  mkVector (of_int (viewport_width self) / of_int 2)
           (of_int (viewport_height self) / of_int 2).

(** Mutations through the two viewport setters. *)
Inductive mutation : Type :=
| SetViewportWidth (value : Z)
| SetViewportHeight (value : Z).

Definition apply (m : mutation) (self : t) : t :=
  match m with
  | SetViewportWidth v => set_viewport_width v self
  | SetViewportHeight v => set_viewport_height v self
  end.

Definition run (ms : list mutation) (self : t) : t :=
  fold_left (fun s m => apply m s) ms self.

End OldCamera.

(** ** Binary64 numbers

    Python's [float] as IEEE 754 binary64: the executable specification
    [SpecFloat] of the standard library at precision 53 and exponent bound
    1024.  Operations round to nearest, ties to even, and overflow to an
    infinity. *)

Module B64.

Definition prec : Z := 53.
Definition emax : Z := 1024.

(** A Python number: an [int] or a [float]. *)
Inductive num : Type :=
| Int (z : Z)
| Float (f : spec_float).

(** An integer as an exact, unrounded operand of a rounding operation. *)
Definition exact (z : Z) : spec_float :=
  match z with
  | Z0 => S754_zero false
  | Zpos p => S754_finite false p 0
  | Zneg p => S754_finite true p 0
  end.

Definition is_zero (f : spec_float) : bool :=
  match f with
  | S754_zero _ => true
  | _ => false
  end.

Definition is_infinity (f : spec_float) : bool :=
  match f with
  | S754_infinity _ => true
  | _ => false
  end.


(** [float(z)], the conversion an [int] operand undergoes next to a
    [float]: the nearest binary64 number, [OverflowError] beyond the
    range. *)
Definition of_int (z : Z) : result spec_float :=
  let f := binary_normalize prec emax z 0 false in
  if is_infinity f then Raise OverflowError else Ok f.

(** [a / b] on two floats: [ZeroDivisionError] on a zero divisor of either
    sign, otherwise the IEEE quotient, infinities and NaN included. *)
Definition float_div (a b : spec_float) : result spec_float :=
  if is_zero b then Raise ZeroDivisionError else Ok (SFdiv prec emax a b).

(** [a / b] on two ints: the correctly rounded quotient of the integers,
    [OverflowError] when it exceeds the range. *)
Definition int_div (a b : Z) : result spec_float :=
  if (b =? 0)%Z then Raise ZeroDivisionError
  else
    let q := SFdiv prec emax (exact a) (exact b) in
    if is_infinity q then Raise OverflowError else Ok q.

(** True division [a / b]; an [int] next to a [float] is converted
    first. *)
Definition truediv (a b : num) : result spec_float :=
  match a, b with
  | Int m, Int n => int_div m n
  | Int m, Float g => f <- of_int m ;; float_div f g
  | Float f, Int n => g <- of_int n ;; float_div f g
  | Float f, Float g => float_div f g
  end.

(** [int(f)]: truncation toward zero; [OverflowError] on an infinity and
    [ValueError] on NaN. *)
Definition int (f : spec_float) : result Z :=
  match f with
  | S754_nan => Raise (ValueError "cannot convert float NaN to integer")
  | S754_infinity _ => Raise OverflowError
  | S754_zero _ => Ok 0%Z
  | S754_finite s m e =>
      Ok (cond_Zopp s
            match e with
            | Zneg p => Z.shiftr (Zpos m) (Zpos p)
            | _ => Z.shiftl (Zpos m) e
            end)
  end.


(** [0 < a] as Python decides it. *)
Definition positive (a : num) : Prop :=
  match a with
  | Int z => (0 < z)%Z
  | Float f => SFltb (S754_zero false) f = true
  end.

End B64.

(** ** The current camera over binary64

    The same class as [Camera], with numbers as the interpreter has
    them: the targets are ints or floats, [pixel_ratio] is an int, and
    [_width] and [_height] are floats. *)

Module Camera64.
Section WithRenderer.

Variable Renderer : Type.

Record t : Type := mk {
  renderer : Renderer;
  target_game_unit_width : B64.num;
  viewport_dimensions : Z * Z;
  pixel_ratio : option Z;
  _width : option spec_float;
  _height : option spec_float;
  position : B64.num * B64.num
}.

Definition set_pixel_ratio (v : option Z) (self : t) : t :=
  mk (renderer self) (target_game_unit_width self) (viewport_dimensions self)
     v (_width self) (_height self) (position self).

Definition set__width (v : option spec_float) (self : t) : t :=
  mk (renderer self) (target_game_unit_width self) (viewport_dimensions self)
     (pixel_ratio self) v (_height self) (position self).

Definition set__height (v : option spec_float) (self : t) : t :=
  mk (renderer self) (target_game_unit_width self) (viewport_dimensions self)
     (pixel_ratio self) (_width self) v (position self).

Definition _set_dimensions (target_width target_height : option B64.num)
  : M t unit :=
  ('(viewport_width, viewport_height) <- gets viewport_dimensions ;;
  '(game_unit_target, pixel_value) <-
    match target_width, target_height with
    | Some _, Some _ =>
        raise (ValueError "Can only set one dimension at a time.")
    | Some tw, None => mret (tw, viewport_width)
    | None, Some th => mret (th, viewport_height)
    | None, None =>
        raise (ValueError "Must set target_width or target_height")
    end ;;
  q <- lift (B64.truediv (B64.Int pixel_value) game_unit_target) ;;
  r <- lift (B64.int q) ;;
  modify (set_pixel_ratio (Some r)) ;;;
  r <- gets pixel_ratio ;;
  r <- lift (number r) ;;
  w <- lift (B64.truediv (B64.Int viewport_width) (B64.Int r)) ;;
  modify (set__width (Some w)) ;;;
  r <- gets pixel_ratio ;;
  r <- lift (number r) ;;
  h <- lift (B64.truediv (B64.Int viewport_height) (B64.Int r)) ;;
  modify (set__height (Some h)))%meth.

Definition __init__ (renderer : Renderer)
    (target_game_unit_width : B64.num) (viewport_dimensions : Z * Z)
  : result t :=
  let self :=
    mk renderer target_game_unit_width viewport_dimensions None None None
       (B64.Int 0, B64.Int 0) in
  match _set_dimensions (Some target_game_unit_width) None self with
  | (self', Ok _) => Ok self'
  | (_, Raise e) => Raise e
  end.

(** The [width] setter. *)
Definition set_width (target_width : B64.num) : M t unit :=
  _set_dimensions (Some target_width) None.

(** The [height] setter. *)
Definition set_height (target_height : B64.num) : M t unit :=
  _set_dimensions None (Some target_height).

(** Any [ValueError], the class a caller can catch. *)
Definition is_ValueError {A : Type} (r : result A) : Prop :=
  exists msg, r = Raise (ValueError msg).



(** How a call with one target ends, step by step, on the axis with
    [pixel_value] pixels: this summary is what [_set_dimensions] is proved
    to compute. *)
Definition one_target_outcome (self : t) (pixel_value : Z)
    (target : B64.num) : t * result unit :=
  let '(vw, vh) := viewport_dimensions self in
  match B64.truediv (B64.Int pixel_value) target with
  | Raise e => (self, Raise e)
  | Ok q =>
      match B64.int q with
      | Raise e => (self, Raise e)
      | Ok r =>
          let self1 := set_pixel_ratio (Some r) self in
          match B64.truediv (B64.Int vw) (B64.Int r) with
          | Raise e => (self1, Raise e)
          | Ok w =>
              let self2 := set__width (Some w) self1 in
              match B64.truediv (B64.Int vh) (B64.Int r) with
              | Raise e => (self2, Raise e)
              | Ok h => (set__height (Some h) self2, Ok tt)
              end
          end
      end
  end.





End WithRenderer.
End Camera64.

(** ** Concrete objects used in the examples *)

Module Examples.

(** [Camera(renderer, 8, (800, 600))]. *)
Definition camera_800x600 : Camera.t unit :=
  Camera.mk tt (of_int 8) (800, 600)%Z (Some 100%Z)
    (Some (of_int 8)) (Some (of_int 6)) (mkVector 0 0).

(** [OldCamera()] with its default viewport and pixel ratio. *)
Definition old_camera : OldCamera.t :=
  OldCamera.mk 0 (mkVector 0 0) (mkVector 0 0) 800 600
    (mkVector (of_int 400) (of_int 300)) (of_int 64).

(** A sprite whose right side lies exactly on the left edge of
    [old_camera]'s frame, at x = -6.25. *)
Definition touching_sprite : Sprite.t :=
  Sprite.mk (Q2Qc (-29 # 4)) (Q2Qc (-25 # 4)) (Q2Qc (1 # 2))
    (Q2Qc (-1 # 2)).

(** A legacy camera whose pixel ratio is zero. *)
Definition flat_camera : OldCamera.t :=
  OldCamera.mk 0 (mkVector 0 0) (mkVector 0 0) 800 600
    (mkVector (of_int 400) (of_int 300)) 0.

(** [old_camera] with its viewport moved 10 pixels to the right in the
    window. *)
Definition shifted_camera : OldCamera.t :=
  OldCamera.set_viewport_origin (mkVector (of_int 10) 0) old_camera.

(** [Camera(renderer, 8, (800, 600))] over binary64: ratio 100, width 8.0
    and height 6.0. *)
Definition camera64_800x600 : Camera64.t unit :=
  Camera64.mk tt (B64.Int 8) (800, 600)%Z (Some 100%Z)
    (Some (S754_finite false 4503599627370496 (-49)))
    (Some (S754_finite false 6755399441055744 (-50)))
    (B64.Int 0, B64.Int 0).



End Examples.

(** * Facts about the number model *)

Section Numbers.

Lemma of_int_le (a b : Z) : (a <= b)%Z -> of_int a <= of_int b.
Proof.
  intros H. unfold of_int, Qcle. cbn [this Q2Qc].
  rewrite !Qred_correct. unfold Qle. cbn. lia.
Qed.

Lemma of_int_lt (a b : Z) : (a < b)%Z -> of_int a < of_int b.
Proof.
  intros H. unfold of_int, Qclt. cbn [this Q2Qc].
  rewrite !Qred_correct. unfold Qlt. cbn. lia.
Qed.

Lemma of_int_inj (a b : Z) : of_int a = of_int b -> a = b.
Proof.
  unfold of_int. intros H. apply Q2Qc_eq_iff in H.
  unfold Qeq in H. cbn in H. lia.
Qed.

Lemma of_int_0 : of_int 0 = 0.
Proof. apply Qc_is_canon. reflexivity. Qed.

Lemma of_int_1 : of_int 1 = 1.
Proof. apply Qc_is_canon. reflexivity. Qed.

Lemma of_int_2_neq_0 : of_int 2 <> 0.
Proof. rewrite <- of_int_0. intros H. apply of_int_inj in H. discriminate. Qed.

Lemma of_int_eq_0 (z : Z) : of_int z = 0 <-> z = 0%Z.
Proof.
  rewrite <- of_int_0. split; [apply of_int_inj | intros ->; reflexivity].
Qed.

(** On non-negative numbers [int] is [floor]. *)
Lemma int_floor (q : Qc) : 0 <= q -> int q = floor q.
Proof.
  unfold int, floor, Qcle. destruct q as [[n d] Hc]. cbn.
  unfold Qle. cbn. intros H. apply Z.quot_div_nonneg; lia.
Qed.

Lemma floor_le (q : Qc) : of_int (floor q) <= q.
Proof.
  unfold of_int, floor, Qcle. cbn [this Q2Qc].
  rewrite Qred_correct. apply Qfloor_le.
Qed.

Lemma floor_mono (p q : Qc) : p <= q -> (floor p <= floor q)%Z.
Proof. unfold floor, Qcle. apply Qfloor_resp_le. Qed.

Lemma floor_of_int (z : Z) : floor (of_int z) = z.
Proof.
  unfold floor, of_int. cbn [this Q2Qc].
  rewrite (Qfloor_comp _ _ (Qred_correct (inject_Z z))). apply Qfloor_Z.
Qed.

Lemma leb_le (a b : Qc) : leb a b = true <-> a <= b.
Proof. unfold leb, Qcle. apply Qle_bool_iff. Qed.

Lemma truediv_ok (a b : Qc) : b <> 0 -> truediv a b = Ok (a / b).
Proof. intros H. unfold truediv. destruct (Qc_eq_dec b 0); congruence. Qed.

Lemma truediv_0 (a : Qc) : truediv a 0 = Raise ZeroDivisionError.
Proof. unfold truediv. destruct (Qc_eq_dec 0 0); congruence. Qed.

End Numbers.

(** * The dimension solver of [Camera] *)

Section CameraDimensions.

Variable Renderer : Type.
Implicit Type self : Camera.t Renderer.

Ltac run_method :=
  unfold Camera._set_dimensions, mbind, mret, gets, lift, modify, raise;
  cbn.

Lemma set_dimensions_width_run self tw :
  Camera._set_dimensions (Some tw) None self =
  Camera.one_target_outcome self (fst (Camera.viewport_dimensions self)) tw.
Proof.
  unfold Camera.one_target_outcome, Camera.solved_state. run_method.
  destruct (Camera.viewport_dimensions self) as [vw vh]. cbn.
  unfold truediv at 1. destruct (Qc_eq_dec tw 0) as [E|E]; [reflexivity|].
  cbn. destruct (Z.eq_dec (int (of_int vw / tw)) 0) as [R|R].
  - rewrite R, of_int_0, truediv_0. reflexivity.
  - rewrite !truediv_ok by (rewrite of_int_eq_0; exact R). reflexivity.
Qed.

Lemma set_dimensions_height_run self th :
  Camera._set_dimensions None (Some th) self =
  Camera.one_target_outcome self (snd (Camera.viewport_dimensions self)) th.
Proof.
  unfold Camera.one_target_outcome, Camera.solved_state. run_method.
  destruct (Camera.viewport_dimensions self) as [vw vh]. cbn.
  unfold truediv at 1. destruct (Qc_eq_dec th 0) as [E|E]; [reflexivity|].
  cbn. destruct (Z.eq_dec (int (of_int vh / th)) 0) as [R|R].
  - rewrite R, of_int_0, truediv_0. reflexivity.
  - rewrite !truediv_ok by (rewrite of_int_eq_0; exact R). reflexivity.
Qed.

Lemma one_target_outcome_cases self pixel_value target :
  snd (Camera.one_target_outcome self pixel_value target) = Ok tt /\
  Camera.nondegenerate pixel_value target
  \/
  snd (Camera.one_target_outcome self pixel_value target)
    = Raise ZeroDivisionError /\
  ~ Camera.nondegenerate pixel_value target.
Proof.
  unfold Camera.one_target_outcome, Camera.nondegenerate.
  destruct (Qc_eq_dec target 0) as [E|E]; [right; cbn; tauto|].
  cbn. destruct (Z.eq_dec _ 0) as [R|R]; cbn; [right|left]; tauto.
Qed.

(** The validation error is raised exactly when both targets are
    supplied or neither is. *)
Lemma value_error_iff self (tw th : option Qc) :
  Camera.is_ValueError (snd (Camera._set_dimensions tw th self)) <->
  (tw <> None /\ th <> None) \/ (tw = None /\ th = None).
Proof.
  destruct tw as [tw|], th as [th|].
  - split; [intros _; left; split; discriminate|].
    intros _. eexists. unfold Camera._set_dimensions, mbind, gets, raise.
    destruct (Camera.viewport_dimensions self). reflexivity.
  - rewrite set_dimensions_width_run. split.
    + intros [msg H].
      destruct (one_target_outcome_cases self
                  (fst (Camera.viewport_dimensions self)) tw)
        as [[E _]|[E _]]; rewrite E in H; discriminate H.
    + intros [[_ H]|[H _]]; [contradiction H; reflexivity|discriminate H].
  - rewrite set_dimensions_height_run. split.
    + intros [msg H].
      destruct (one_target_outcome_cases self
                  (snd (Camera.viewport_dimensions self)) th)
        as [[E _]|[E _]]; rewrite E in H; discriminate H.
    + intros [[H _]|[_ H]]; [contradiction H; reflexivity|discriminate H].
  - split; [intros _; right; split; reflexivity|].
    intros _. eexists. unfold Camera._set_dimensions, mbind, gets, raise.
    destruct (Camera.viewport_dimensions self). reflexivity.
Qed.

(** C9.  When a dimension-set call raises its validation error the camera
    is left exactly as it was: in particular [pixel_ratio], [_width] and
    [_height] keep their values. *)
Theorem set_dimensions_atomic_on_error self (tw th : option Qc)
    self' (out : result unit) :
  Camera._set_dimensions tw th self = (self', out) ->
  Camera.is_ValueError out ->
  self' = self /\
  Camera.pixel_ratio self' = Camera.pixel_ratio self /\
  Camera._width self' = Camera._width self /\
  Camera._height self' = Camera._height self.
Proof.
  intros Hrun Hout.
  assert (self' = self) as ->; [|repeat split].
  assert (Camera.is_ValueError (snd (Camera._set_dimensions tw th self)))
    as Hv by (rewrite Hrun; exact Hout).
  apply value_error_iff in Hv. revert Hrun.
  unfold Camera._set_dimensions, mbind, gets, raise.
  destruct (Camera.viewport_dimensions self).
  destruct Hv as [[Hw Hh]|[-> ->]].
  - destruct tw; [|contradiction]. destruct th; [|contradiction].
    intros [= <- _]. reflexivity.
  - intros [= <- _]. reflexivity.
Qed.

End CameraDimensions.

(** ** The solver on concrete cameras *)

Lemma init_800x600 :
  Camera.__init__ tt (of_int 8) (800, 600)%Z = Ok Examples.camera_800x600.
Proof.
  unfold Camera.__init__. rewrite set_dimensions_width_run.
  unfold Camera.one_target_outcome.
  destruct (Qc_eq_dec (of_int 8) 0) as [E|_];
    [apply of_int_eq_0 in E; discriminate E|].
  replace (int (of_int (fst (800, 600)%Z) / of_int 8)) with 100%Z
    by (vm_compute; reflexivity).
  cbn. unfold Examples.camera_800x600.
  unfold Camera.set__height, Camera.set__width, Camera.set_pixel_ratio. cbn.
  do 2 f_equal; f_equal; apply Qc_is_canon; reflexivity.
Qed.

Lemma set_dimensions_atomic_on_error_witness :
  let out := Camera._set_dimensions (Some (of_int 800)) (Some (of_int 450))
               Examples.camera_800x600 in
  Camera.is_ValueError (snd out) /\
  fst out = Examples.camera_800x600 /\
  Camera.pixel_ratio (fst out) = Some 100%Z /\
  Camera._width (fst out) = Some (of_int 8) /\
  Camera._height (fst out) = Some (of_int 6).
Proof.
  intros out.
  assert (Camera.is_ValueError (snd out)) as Hv by (eexists; reflexivity).
  split; [exact Hv|].
  exact (set_dimensions_atomic_on_error Examples.camera_800x600
           (Some (of_int 800)) (Some (of_int 450))
           (self' := fst out) (out := snd out) eq_refl Hv).
Defined.

(** C6.  With viewport (800, 600) and a target width of 8 game units the
    constructed camera has [pixel_ratio = 100], [width = 8] and
    [height = 6]; its position is (0, 0), and the game-unit point (4, 3)
    maps to the pixel point (800, 0). *)
Theorem camera_800x600_example :
  exists cam,
    Camera.__init__ tt (of_int 8) (800, 600)%Z = Ok cam /\
    Camera.pixel_ratio cam = Some 100%Z /\
    Camera.width cam = Ok (of_int 8) /\
    Camera.height cam = Ok (of_int 6) /\
    Camera.position cam = mkVector (of_int 0) (of_int 0) /\
    Camera.translate_point_to_screen cam (mkVector (of_int 4) (of_int 3))
      = Ok (mkVector (of_int 800) (of_int 0)).
Proof.
  exists Examples.camera_800x600.
  split; [exact init_800x600|].
  repeat split.
Qed.

(** * Frame geometry of [Camera] *)

Lemma leb_false_iff (a b : Qc) : leb a b = false <-> ~ a <= b.
Proof.
  rewrite <- leb_le. destruct (leb a b); split; congruence.
Qed.

Section CameraGeometry.

Variable Renderer : Type.
Implicit Type self : Camera.t Renderer.

(** On a camera whose extents are set, the four edges are defined. *)
Lemma edges_defined self w h :
  Camera._width self = Some w -> Camera._height self = Some h ->
  Camera.left self = Ok (x (Camera.position self) - w / of_int 2) /\
  Camera.right self = Ok (x (Camera.position self) + w / of_int 2) /\
  Camera.bottom self = Ok (y (Camera.position self) - h / of_int 2) /\
  Camera.top self = Ok (y (Camera.position self) + h / of_int 2).
Proof.
  intros Hw Hh.
  unfold Camera.left, Camera.right, Camera.bottom, Camera.top,
    Camera.width, Camera.height.
  rewrite Hw, Hh. cbn. repeat split.
Qed.

(** What [point_is_visible] computes once the edges are known. *)
Lemma point_is_visible_edges self point l r b t :
  Camera.left self = Ok l -> Camera.right self = Ok r ->
  Camera.bottom self = Ok b -> Camera.top self = Ok t ->
  Camera.point_is_visible self point
  = Ok (leb l (x point) && leb (x point) r
        && (leb b (y point) && leb (y point) t)).
Proof.
  intros Hl Hr Hb Ht. unfold Camera.point_is_visible, and_then, chain_le.
  rewrite Hl, Hr, Hb, Ht. cbn.
  destruct (leb l (x point)); cbn; [|reflexivity].
  destruct (leb (x point) r); cbn; [|reflexivity].
  destruct (leb b (y point)); cbn; reflexivity.
Qed.

Lemma in_bounds_iff (l r b t px py : Qc) :
  leb l px && leb px r && (leb b py && leb py t) = true <->
  (l <= px /\ px <= r) /\ (b <= py /\ py <= t).
Proof.
  rewrite !andb_true_iff, !leb_le. tauto.
Qed.

(** C4.  [point_is_visible] returns true exactly when
    [left <= p.x <= right] and [bottom <= p.y <= top], all four bounds
    inclusive.  The first part holds in every camera state; the second
    says that on a camera whose extents are set the call returns a
    boolean, decided by the edges
    [position -/+ width/2] and [position -/+ height/2]. *)
Theorem point_is_visible_inclusive self point :
  (Camera.point_is_visible self point = Ok true <->
   exists l r b t,
     Camera.left self = Ok l /\ Camera.right self = Ok r /\
     Camera.bottom self = Ok b /\ Camera.top self = Ok t /\
     (l <= x point /\ x point <= r) /\ (b <= y point /\ y point <= t)) /\
  (forall w h,
      Camera._width self = Some w -> Camera._height self = Some h ->
      exists v,
        Camera.point_is_visible self point = Ok v /\
        (v = true <->
         (x (Camera.position self) - w / of_int 2 <= x point /\
          x point <= x (Camera.position self) + w / of_int 2) /\
         (y (Camera.position self) - h / of_int 2 <= y point /\
          y point <= y (Camera.position self) + h / of_int 2))).
Proof.
  split.
  - split.
    + unfold Camera.point_is_visible, and_then, chain_le, rbind.
      destruct (Camera.left self) as [l|] eqn:Hl; [|discriminate].
      destruct (leb l (x point)) eqn:E1; [|discriminate].
      destruct (Camera.right self) as [r|] eqn:Hr; [|discriminate].
      destruct (leb (x point) r) eqn:E2; [|discriminate].
      destruct (Camera.bottom self) as [b|] eqn:Hb; [|discriminate].
      destruct (leb b (y point)) eqn:E3; [|discriminate].
      destruct (Camera.top self) as [t|] eqn:Ht; [|discriminate].
      intros [= E4]. exists l, r, b, t.
      rewrite leb_le in E1, E2, E3, E4. tauto.
    + intros (l & r & b & t & Hl & Hr & Hb & Ht & Hin).
      rewrite (point_is_visible_edges self point Hl Hr Hb Ht).
      f_equal. apply in_bounds_iff, Hin.
  - intros w h Hw Hh.
    destruct (edges_defined self Hw Hh) as (Hl & Hr & Hb & Ht).
    eexists. split.
    + apply (point_is_visible_edges self point Hl Hr Hb Ht).
    + apply in_bounds_iff.
Qed.

(** Inclusive edges: with a non-inverted frame, a point lying on an edge
    and within the bounds of the other axis is visible. *)
Lemma point_on_edge_visible self point w h l r b t :
  Camera._width self = Some w -> Camera._height self = Some h ->
  Camera.left self = Ok l -> Camera.right self = Ok r ->
  Camera.bottom self = Ok b -> Camera.top self = Ok t ->
  l <= r -> b <= t ->
  ((x point = l \/ x point = r) /\ b <= y point /\ y point <= t) \/
  ((y point = b \/ y point = t) /\ l <= x point /\ x point <= r) ->
  Camera.point_is_visible self point = Ok true.
Proof.
  intros Hw Hh Hl Hr Hb Ht Hlr Hbt Hon.
  rewrite (point_is_visible_edges self point Hl Hr Hb Ht).
  f_equal. apply in_bounds_iff.
  destruct Hon as [[[E|E] [H1 H2]]|[[E|E] [H1 H2]]]; rewrite E;
    repeat split; auto using Qcle_refl.
Qed.

(** A point strictly beyond any edge is not visible. *)
Lemma point_beyond_edge_hidden self point l r b t :
  Camera.left self = Ok l -> Camera.right self = Ok r ->
  Camera.bottom self = Ok b -> Camera.top self = Ok t ->
  x point < l \/ r < x point \/ y point < b \/ t < y point ->
  Camera.point_is_visible self point = Ok false.
Proof.
  intros Hl Hr Hb Ht Hout.
  rewrite (point_is_visible_edges self point Hl Hr Hb Ht). f_equal.
  apply not_true_is_false. rewrite in_bounds_iff.
  intros [[H1 H2] [H3 H4]].
  destruct Hout as [H|[H|[H|H]]];
    eapply Qclt_not_le; eassumption.
Qed.

End CameraGeometry.

Lemma point_is_visible_inclusive_witness :
  Camera.point_is_visible Examples.camera_800x600
    (mkVector (of_int 4) (of_int 3)) = Ok true.
Proof.
  destruct (proj2 (point_is_visible_inclusive Examples.camera_800x600
                     (mkVector (of_int 4) (of_int 3)))
              (of_int 8) (of_int 6) eq_refl eq_refl) as (v & Hrun & Hv).
  rewrite Hrun. f_equal. apply Hv.
  cbn. repeat split; vm_compute; discriminate.
Defined.

(** * The legacy camera *)

Section OldCameraFrame.

Implicit Type self : OldCamera.t.

(** With a nonzero pixel ratio the four frame edges are defined. *)
Lemma frame_edges_defined self :
  OldCamera.pixel_ratio self <> 0 ->
  let hw := of_int (OldCamera.viewport_width self)
            / OldCamera.pixel_ratio self / of_int 2 in
  let hh := of_int (OldCamera.viewport_height self)
            / OldCamera.pixel_ratio self / of_int 2 in
  OldCamera.frame_left self = Ok (x (OldCamera.position self) - hw) /\
  OldCamera.frame_right self = Ok (x (OldCamera.position self) + hw) /\
  OldCamera.frame_top self = Ok (y (OldCamera.position self) + hh) /\
  OldCamera.frame_bottom self = Ok (y (OldCamera.position self) - hh).
Proof.
  intros Hr.
  unfold OldCamera.frame_left, OldCamera.frame_right, OldCamera.frame_top,
    OldCamera.frame_bottom, OldCamera.half_width, OldCamera.half_height,
    OldCamera.frame_width, OldCamera.frame_height.
  rewrite !truediv_ok by exact Hr. cbn. repeat split.
Qed.

(** With a zero pixel ratio every frame edge raises. *)
Lemma frame_edges_zero_ratio self :
  OldCamera.pixel_ratio self = 0 ->
  OldCamera.frame_left self = Raise ZeroDivisionError /\
  OldCamera.frame_right self = Raise ZeroDivisionError /\
  OldCamera.frame_top self = Raise ZeroDivisionError /\
  OldCamera.frame_bottom self = Raise ZeroDivisionError.
Proof.
  intros Hr.
  unfold OldCamera.frame_left, OldCamera.frame_right, OldCamera.frame_top,
    OldCamera.frame_bottom, OldCamera.half_width, OldCamera.half_height,
    OldCamera.frame_width, OldCamera.frame_height.
  rewrite Hr, !truediv_0. cbn. repeat split.
Qed.

Lemma translate_to_viewport_edges self point l t :
  OldCamera.frame_left self = Ok l -> OldCamera.frame_top self = Ok t ->
  OldCamera.translate_to_viewport self point
  = Ok (mkVector ((x point - l) * OldCamera.pixel_ratio self)
                 ((t - y point) * OldCamera.pixel_ratio self)).
Proof.
  intros Hl Ht. unfold OldCamera.translate_to_viewport.
  rewrite Hl, Ht. reflexivity.
Qed.

Lemma translate_to_frame_edges self point l t :
  OldCamera.pixel_ratio self <> 0 ->
  OldCamera.frame_left self = Ok l -> OldCamera.frame_top self = Ok t ->
  OldCamera.translate_to_frame self point
  = Ok (mkVector (l + x point / OldCamera.pixel_ratio self)
                 (t - y point / OldCamera.pixel_ratio self)).
Proof.
  intros Hr Hl Ht. unfold OldCamera.translate_to_frame, vdiv.
  rewrite !truediv_ok by exact Hr. cbn. rewrite Hl, Ht. reflexivity.
Qed.

(** C2.  With a nonzero pixel ratio both translations return, and each
    undoes the other on every point. *)
Theorem translate_round_trip self point :
  OldCamera.pixel_ratio self <> 0 ->
  (exists q,
      OldCamera.translate_to_viewport self point = Ok q /\
      OldCamera.translate_to_frame self q = Ok point) /\
  (exists g,
      OldCamera.translate_to_frame self point = Ok g /\
      OldCamera.translate_to_viewport self g = Ok point).
Proof.
  intros Hr.
  destruct (frame_edges_defined self Hr) as (Hl & _ & Ht & _).
  destruct point as [px py].
  split; eexists; split.
  - apply (translate_to_viewport_edges self _ Hl Ht).
  - rewrite (translate_to_frame_edges self _ Hr Hl Ht). cbn.
    do 2 f_equal; field; repeat split;
      (exact Hr || apply of_int_2_neq_0).
  - apply (translate_to_frame_edges self _ Hr Hl Ht).
  - rewrite (translate_to_viewport_edges self _ Hl Ht). cbn.
    do 2 f_equal; field; repeat split;
      (exact Hr || apply of_int_2_neq_0).
Qed.

End OldCameraFrame.

Section OldCameraOverlap.

Implicit Type self : OldCamera.t.

(** What [in_frame] computes once the edges are known. *)
Lemma in_frame_edges self sprite l r t b :
  OldCamera.frame_left self = Ok l -> OldCamera.frame_right self = Ok r ->
  OldCamera.frame_top self = Ok t -> OldCamera.frame_bottom self = Ok b ->
  OldCamera.in_frame self sprite
  = Ok (leb l (Sprite.right sprite) && (leb (Sprite.left sprite) r
        && (leb (Sprite.bottom sprite) t && leb b (Sprite.top sprite)))).
Proof.
  intros Hl Hr Ht Hb. unfold OldCamera.in_frame, and_then.
  rewrite Hl, Hr, Ht, Hb. cbn.
  destruct (leb l (Sprite.right sprite)); cbn; [|reflexivity].
  destruct (leb (Sprite.left sprite) r); cbn; [|reflexivity].
  destruct (leb (Sprite.bottom sprite) t); cbn; reflexivity.
Qed.

Lemma overlap_iff (l r t b sl sr st sb : Qc) :
  leb l sr && (leb sl r && (leb sb t && leb b st)) = true <->
  l <= sr /\ sl <= r /\ sb <= t /\ b <= st.
Proof.
  rewrite !andb_true_iff, !leb_le. tauto.
Qed.

(** C5.  [in_frame] returns true exactly when
    [frame_left <= other.right], [frame_right >= other.left],
    [frame_top >= other.bottom] and [frame_bottom <= other.top]; the first
    part holds in every state of the legacy camera, the second says that
    with a nonzero pixel ratio the call returns a boolean decided by these
    four comparisons, and the third that a sprite whose right side is
    exactly [frame_left] is in frame when the other three comparisons
    hold. *)
Theorem in_frame_overlap self sprite :
  (OldCamera.in_frame self sprite = Ok true <->
   exists l r t b,
     OldCamera.frame_left self = Ok l /\
     OldCamera.frame_right self = Ok r /\
     OldCamera.frame_top self = Ok t /\
     OldCamera.frame_bottom self = Ok b /\
     l <= Sprite.right sprite /\ Sprite.left sprite <= r /\
     Sprite.bottom sprite <= t /\ b <= Sprite.top sprite) /\
  (OldCamera.pixel_ratio self <> 0 ->
   exists l r t b v,
     OldCamera.frame_left self = Ok l /\
     OldCamera.frame_right self = Ok r /\
     OldCamera.frame_top self = Ok t /\
     OldCamera.frame_bottom self = Ok b /\
     OldCamera.in_frame self sprite = Ok v /\
     (v = true <->
      l <= Sprite.right sprite /\ Sprite.left sprite <= r /\
      Sprite.bottom sprite <= t /\ b <= Sprite.top sprite)) /\
  (forall l r t b,
      OldCamera.frame_left self = Ok l ->
      OldCamera.frame_right self = Ok r ->
      OldCamera.frame_top self = Ok t ->
      OldCamera.frame_bottom self = Ok b ->
      l = Sprite.right sprite ->
      Sprite.left sprite <= r -> Sprite.bottom sprite <= t ->
      b <= Sprite.top sprite ->
      OldCamera.in_frame self sprite = Ok true).
Proof.
  split; [|split].
  - split.
    + unfold OldCamera.in_frame, and_then, rbind.
      destruct (OldCamera.frame_left self) as [l|] eqn:Hl; [|discriminate].
      destruct (leb l (Sprite.right sprite)) eqn:E1; [|discriminate].
      destruct (OldCamera.frame_right self) as [r|] eqn:Hr; [|discriminate].
      destruct (leb (Sprite.left sprite) r) eqn:E2; [|discriminate].
      destruct (OldCamera.frame_top self) as [t|] eqn:Ht; [|discriminate].
      destruct (leb (Sprite.bottom sprite) t) eqn:E3; [|discriminate].
      destruct (OldCamera.frame_bottom self) as [b|] eqn:Hb; [|discriminate].
      intros [= E4]. exists l, r, t, b.
      rewrite leb_le in E1, E2, E3, E4. tauto.
    + intros (l & r & t & b & Hl & Hr & Ht & Hb & Hin).
      rewrite (in_frame_edges self sprite Hl Hr Ht Hb).
      f_equal. apply overlap_iff, Hin.
  - intros Hne.
    destruct (frame_edges_defined self Hne) as (Hl & Hr & Ht & Hb).
    do 5 eexists.
    split; [exact Hl|]. split; [exact Hr|].
    split; [exact Ht|]. split; [exact Hb|].
    split; [apply (in_frame_edges self sprite Hl Hr Ht Hb)|].
    apply overlap_iff.
  - intros l r t b Hl Hr Ht Hb E H2 H3 H4.
    rewrite (in_frame_edges self sprite Hl Hr Ht Hb).
    f_equal. apply overlap_iff. rewrite E.
    repeat split; auto using Qcle_refl.
Qed.

End OldCameraOverlap.

Section OldCameraViewport.

Implicit Type self : OldCamera.t.

(** The constructor returns on every viewport with at least four items. *)
Lemma old_init_total (vx vy vw vh : Z) (rest : list Z) (ratio : Qc) :
  OldCamera.__init__ (vx :: vy :: vw :: vh :: rest) ratio
  = Ok (OldCamera.mk 0 (mkVector 0 0) (mkVector (of_int vx) (of_int vy))
          vw vh (mkVector (of_int vw / of_int 2) (of_int vh / of_int 2))
          ratio).
Proof. reflexivity. Qed.

Lemma old_init_in_sync viewport ratio self :
  OldCamera.__init__ viewport ratio = Ok self ->
  OldCamera.offset_in_sync self.
Proof.
  unfold OldCamera.__init__, OldCamera.item, rbind.
  destruct (nth_error viewport 0); [|discriminate].
  destruct (nth_error viewport 1); [|discriminate].
  destruct (nth_error viewport 2); [|discriminate].
  destruct (nth_error viewport 3); [|discriminate].
  intros [= <-]. reflexivity.
Qed.

Lemma set_viewport_width_in_sync self value :
  OldCamera.offset_in_sync (OldCamera.set_viewport_width value self).
Proof. reflexivity. Qed.

Lemma set_viewport_height_in_sync self value :
  OldCamera.offset_in_sync (OldCamera.set_viewport_height value self).
Proof. reflexivity. Qed.

Lemma run_in_sync ms : forall self,
  OldCamera.offset_in_sync self ->
  OldCamera.offset_in_sync (OldCamera.run ms self).
Proof.
  unfold OldCamera.run.
  induction ms as [|m ms IH]; intros self Hs; cbn; [exact Hs|].
  apply IH. destruct m; cbn;
    [apply set_viewport_width_in_sync | apply set_viewport_height_in_sync].
Qed.

(** C7.  The cache [viewport_offset] equals
    [(viewport_width / 2, viewport_height / 2)] after construction, after
    either viewport setter (whatever the state before it), and therefore
    after every sequence of setter calls on a constructed camera. *)
Theorem viewport_offset_invariant :
  (forall viewport ratio self,
      OldCamera.__init__ viewport ratio = Ok self ->
      OldCamera.offset_in_sync self) /\
  (forall self value,
      OldCamera.offset_in_sync (OldCamera.set_viewport_width value self)) /\
  (forall self value,
      OldCamera.offset_in_sync (OldCamera.set_viewport_height value self)) /\
  (forall viewport ratio self ms,
      OldCamera.__init__ viewport ratio = Ok self ->
      OldCamera.offset_in_sync (OldCamera.run ms self)).
Proof.
  repeat split.
  - apply old_init_in_sync.
  - intros viewport ratio self ms H.
    apply run_in_sync, (old_init_in_sync _ _ H).
Qed.

(** C8.  On a camera whose cache is in sync, the [viewport_width] setter
    changes [_viewport_width] and [viewport_offset.x] only (from 400 to
    320 when the width goes from 800 to 640), and the [viewport_height]
    setter changes [_viewport_height] and [viewport_offset.y] only. *)
Theorem viewport_setters_frame self :
  OldCamera.offset_in_sync self ->
  (OldCamera.viewport_width self = 800%Z ->
   x (OldCamera.viewport_offset self) = of_int 400 /\
   x (OldCamera.viewport_offset (OldCamera.set_viewport_width 640 self))
     = of_int 320) /\
  (forall value,
      let self' := OldCamera.set_viewport_width value self in
      OldCamera.viewport_width self' = value /\
      x (OldCamera.viewport_offset self') = of_int value / of_int 2 /\
      y (OldCamera.viewport_offset self')
        = y (OldCamera.viewport_offset self) /\
      OldCamera.viewport_height self' = OldCamera.viewport_height self /\
      OldCamera.size self' = OldCamera.size self /\
      OldCamera.position self' = OldCamera.position self /\
      OldCamera.viewport_origin self' = OldCamera.viewport_origin self /\
      OldCamera.pixel_ratio self' = OldCamera.pixel_ratio self) /\
  (forall value,
      let self' := OldCamera.set_viewport_height value self in
      OldCamera.viewport_height self' = value /\
      y (OldCamera.viewport_offset self') = of_int value / of_int 2 /\
      x (OldCamera.viewport_offset self')
        = x (OldCamera.viewport_offset self) /\
      OldCamera.viewport_width self' = OldCamera.viewport_width self /\
      OldCamera.size self' = OldCamera.size self /\
      OldCamera.position self' = OldCamera.position self /\
      OldCamera.viewport_origin self' = OldCamera.viewport_origin self /\
      OldCamera.pixel_ratio self' = OldCamera.pixel_ratio self).
Proof.
  intros Hs. unfold OldCamera.offset_in_sync in Hs.
  split; [|split].
  - intros Hw. rewrite Hs, Hw. cbn.
    split; apply Qc_is_canon; reflexivity.
  - intros value self'. subst self'. cbn. rewrite Hs. cbn. repeat split.
  - intros value self'. subst self'. cbn. rewrite Hs. cbn. repeat split.
Qed.

End OldCameraViewport.

(** ** The legacy camera on concrete objects *)

Lemma old_camera_ratio_nonzero :
  OldCamera.pixel_ratio Examples.old_camera <> 0.
Proof. intros E. apply of_int_eq_0 in E. discriminate E. Qed.

Lemma old_camera_in_sync : OldCamera.offset_in_sync Examples.old_camera.
Proof.
  unfold OldCamera.offset_in_sync. cbn.
  f_equal; apply Qc_is_canon; reflexivity.
Qed.

Lemma translate_round_trip_witness :
  let point := mkVector (of_int 1) (of_int 2) in
  (exists q,
      OldCamera.translate_to_viewport Examples.old_camera point = Ok q /\
      OldCamera.translate_to_frame Examples.old_camera q = Ok point) /\
  (exists g,
      OldCamera.translate_to_frame Examples.old_camera point = Ok g /\
      OldCamera.translate_to_viewport Examples.old_camera g = Ok point).
Proof.
  intros point.
  apply (translate_round_trip Examples.old_camera point).
  intros E. apply of_int_eq_0 in E. discriminate E.
Defined.

Lemma in_frame_overlap_witness :
  OldCamera.in_frame Examples.old_camera Examples.touching_sprite = Ok true.
Proof.
  destruct (frame_edges_defined Examples.old_camera old_camera_ratio_nonzero)
    as (Hl & Hr & Ht & Hb).
  refine (proj2 (proj2 (in_frame_overlap Examples.old_camera
                          Examples.touching_sprite))
            _ _ _ _ Hl Hr Ht Hb _ _ _ _).
  - apply Qc_is_canon. reflexivity.
  - vm_compute. discriminate.
  - vm_compute. discriminate.
  - vm_compute. discriminate.
Defined.

Lemma viewport_offset_invariant_witness :
  exists self,
    OldCamera.__init__ OldCamera.default_viewport
      OldCamera.default_pixel_ratio = Ok self /\
    OldCamera.offset_in_sync self /\
    OldCamera.offset_in_sync
      (OldCamera.run [OldCamera.SetViewportWidth 640;
                      OldCamera.SetViewportHeight 480] self).
Proof.
  eexists. split; [reflexivity|]. split.
  - apply (proj1 viewport_offset_invariant OldCamera.default_viewport
             OldCamera.default_pixel_ratio). reflexivity.
  - apply (proj2 (proj2 (proj2 viewport_offset_invariant))
             OldCamera.default_viewport OldCamera.default_pixel_ratio).
    reflexivity.
Defined.

Lemma viewport_setters_frame_witness :
  x (OldCamera.viewport_offset Examples.old_camera) = of_int 400 /\
  x (OldCamera.viewport_offset
       (OldCamera.set_viewport_width 640 Examples.old_camera)) = of_int 320.
Proof.
  apply (proj1 (viewport_setters_frame old_camera_in_sync)). reflexivity.
Defined.


(** * Further properties of the number model *)

(** Order goals on [Qc] are decided on the underlying rationals. *)
Ltac qc_to_q :=
  unfold Qcle, Qclt, Qcminus, Qcdiv, Qcplus, Qcmult, Qcopp, Qcinv, of_int,
    Q2Qc in *;
  cbn [this] in *; rewrite ?Qred_correct in *.

Lemma Qc_eq_Qeq (a b : Qc) : a = b -> (a == b)%Q.
Proof. intros ->. reflexivity. Qed.

Lemma of_int_lt_iff (a b : Z) : of_int a < of_int b <-> (a < b)%Z.
Proof.
  split; [|apply of_int_lt].
  intros H. destruct (Z.lt_ge_cases a b) as [L|L]; [exact L|].
  exfalso. apply (Qclt_not_le _ _ H (of_int_le L)).
Qed.

(** Truncation sends the numbers of absolute value below one to zero. *)
Lemma int_small (q : Qc) : 0 <= q -> q < 1 -> int q = 0%Z.
Proof.
  intros H0 H1. rewrite (int_floor H0).
  assert (0 <= floor q)%Z as Hlo.
  { rewrite <- (floor_of_int 0), of_int_0. apply floor_mono, H0. }
  assert (floor q < 1)%Z as Hhi.
  { apply of_int_lt_iff. rewrite of_int_1.
    apply Qcle_lt_trans with (y := q); [apply floor_le | exact H1]. }
  lia.
Qed.

(** * Further properties of the dimension solver *)

Section CameraSolverMore.

Variable Renderer : Type.
Implicit Type self : Camera.t Renderer.

(** X1.  A target of zero on either axis raises [ZeroDivisionError] at the first
    division, before any assignment: the camera is unchanged. *)
Theorem set_dimensions_zero_target self :
  Camera._set_dimensions (Some 0) None self = (self, Raise ZeroDivisionError)
  /\
  Camera._set_dimensions None (Some 0) self = (self, Raise ZeroDivisionError).
Proof.
  rewrite set_dimensions_width_run, set_dimensions_height_run.
  unfold Camera.one_target_outcome.
  destruct (Qc_eq_dec 0 0) as [_|N]; [split; reflexivity|].
  contradiction N. reflexivity.
Qed.

(** The ratio of a positive target that exceeds a non-negative pixel count
    truncates to zero. *)
Lemma oversized_ratio (pixel_value : Z) (target : Qc) :
  (0 <= pixel_value)%Z -> of_int pixel_value < target ->
  target <> 0 /\ int (of_int pixel_value / target) = 0%Z.
Proof.
  intros Hp Hlt.
  assert (0 <= of_int pixel_value) as Hp'
    by (rewrite <- of_int_0; apply of_int_le, Hp).
  assert (0 < target) as Ht
    by (apply Qcle_lt_trans with (y := of_int pixel_value); assumption).
  assert (target <> 0) as Hne by (intros ->; discriminate Ht).
  split; [exact Hne|].
  set (q := of_int pixel_value / target).
  assert (q * target = of_int pixel_value) as Hq
    by (unfold q; field; exact Hne).
  apply Qc_eq_Qeq in Hq.
  apply int_small; qc_to_q; nra.
Qed.

Lemma oversized_outcome self (pixel_value : Z) (target : Qc) :
  (0 <= pixel_value)%Z -> of_int pixel_value < target ->
  Camera.one_target_outcome self pixel_value target
  = (Camera.set_pixel_ratio (Some 0%Z) self, Raise ZeroDivisionError).
Proof.
  intros Hp Hlt. destruct (oversized_ratio Hp Hlt) as [Hne Hr].
  unfold Camera.one_target_outcome.
  destruct (Qc_eq_dec target 0); [contradiction|].
  rewrite Hr. reflexivity.
Qed.

(** X2.  A positive target larger than the pixel count of its axis makes the
    call raise [ZeroDivisionError] after [pixel_ratio] has been overwritten
    with 0: the error is not atomic, [_width] and [_height] keep their old
    values next to the new ratio. *)
Theorem set_dimensions_oversized_target self (target : Qc) :
  (0 <= fst (Camera.viewport_dimensions self))%Z ->
  of_int (fst (Camera.viewport_dimensions self)) < target ->
  exists self',
    Camera.set_width target self = (self', Raise ZeroDivisionError) /\
    Camera.pixel_ratio self' = Some 0%Z /\
    Camera._width self' = Camera._width self /\
    Camera._height self' = Camera._height self.
Proof.
  intros Hp Hlt. unfold Camera.set_width.
  rewrite set_dimensions_width_run, (oversized_outcome self Hp Hlt).
  eexists. split; [reflexivity|]. repeat split.
Qed.

(** X3.  A positive target height larger than the viewport's pixel height
    makes the [height] setter raise [ZeroDivisionError] after [pixel_ratio]
    has been overwritten with 0, [_width] and [_height] keeping their old
    values. *)
Theorem set_height_oversized_target self (target : Qc) :
  (0 <= snd (Camera.viewport_dimensions self))%Z ->
  of_int (snd (Camera.viewport_dimensions self)) < target ->
  exists self',
    Camera.set_height target self = (self', Raise ZeroDivisionError) /\
    Camera.pixel_ratio self' = Some 0%Z /\
    Camera._width self' = Camera._width self /\
    Camera._height self' = Camera._height self.
Proof.
  intros Hp Hlt. unfold Camera.set_height.
  rewrite set_dimensions_height_run, (oversized_outcome self Hp Hlt).
  eexists. split; [reflexivity|]. repeat split.
Qed.

End CameraSolverMore.

Section CameraSolverCompose.

Variable Renderer : Type.
Implicit Type self : Camera.t Renderer.

(** X8.  No dimension-set call, whether it returns or raises, touches the
    renderer, the viewport's pixel size, the position or the stored
    [target_game_unit_width]: the latter keeps the constructor's value even
    after [width] or [height] has been assigned. *)
Theorem set_dimensions_keeps_configuration self (tw th : option Qc) :
  let self' := fst (Camera._set_dimensions tw th self) in
  Camera.renderer self' = Camera.renderer self /\
  Camera.target_game_unit_width self' = Camera.target_game_unit_width self /\
  Camera.viewport_dimensions self' = Camera.viewport_dimensions self /\
  Camera.position self' = Camera.position self.
Proof.
  assert (forall p t,
             let s := fst (Camera.one_target_outcome self p t) in
             Camera.renderer s = Camera.renderer self /\
             Camera.target_game_unit_width s
             = Camera.target_game_unit_width self /\
             Camera.viewport_dimensions s = Camera.viewport_dimensions self /\
             Camera.position s = Camera.position self) as Hone.
  { intros p t. cbv zeta.
    unfold Camera.one_target_outcome, Camera.solved_state.
    destruct (Qc_eq_dec t 0); cbn; [repeat split|].
    destruct (Z.eq_dec _ 0); cbn; [repeat split|].
    destruct (Camera.viewport_dimensions self) eqn:E; cbn. repeat split.
    exact E. }
  cbv zeta in *. destruct tw as [tw|], th as [th|].
  - unfold Camera._set_dimensions, mbind, gets, raise.
    destruct (Camera.viewport_dimensions self) eqn:E. cbn.
    repeat split. exact E.
  - rewrite set_dimensions_width_run. apply Hone.
  - rewrite set_dimensions_height_run. apply Hone.
  - unfold Camera._set_dimensions, mbind, gets, raise.
    destruct (Camera.viewport_dimensions self) eqn:E. cbn.
    repeat split. exact E.
Qed.

End CameraSolverCompose.

(** * Further properties of the frame of [Camera] *)

Lemma of_int_2 : of_int 2 = 1 + 1.
Proof. apply Qc_is_canon. reflexivity. Qed.

Lemma two_neq_0 : (1 + 1 : Qc) <> 0.
Proof. rewrite <- of_int_2. apply of_int_2_neq_0. Qed.

Lemma half_split (w : Qc) : w / of_int 2 + w / of_int 2 = w.
Proof. rewrite of_int_2. field. apply two_neq_0. Qed.

(** A frame around [c] with half extent [hw]: membership and emptiness. *)
Lemma around_centre (c hw w px : Qc) :
  hw + hw = w ->
  (0 <= w -> c - hw <= c /\ c <= c + hw) /\
  (w < 0 -> ~ (c - hw <= px /\ px <= c + hw)).
Proof.
  intros Hw. apply Qc_eq_Qeq in Hw. split.
  - intros H0. split; qc_to_q; lra.
  - intros H0 [H1 H2]. qc_to_q. lra.
Qed.

Section CameraGeometryMore.

Variable Renderer : Type.
Implicit Type self : Camera.t Renderer.

(** X12.  On a camera with non-negative extents the position and the four
    corners of the frame are visible. *)
Theorem centre_and_corners_visible self w h :
  Camera._width self = Some w -> Camera._height self = Some h ->
  0 <= w -> 0 <= h ->
  Camera.point_is_visible self (Camera.position self) = Ok true /\
  exists tl tr bl br,
    Camera.top_left self = Ok tl /\ Camera.top_right self = Ok tr /\
    Camera.bottom_left self = Ok bl /\ Camera.bottom_right self = Ok br /\
    Camera.point_is_visible self tl = Ok true /\
    Camera.point_is_visible self tr = Ok true /\
    Camera.point_is_visible self bl = Ok true /\
    Camera.point_is_visible self br = Ok true.
Proof.
  intros Hw Hh H0w H0h.
  destruct (edges_defined self Hw Hh) as (Hl & Hr & Hb & Ht).
  destruct (proj1 (around_centre (x (Camera.position self))
                     (x (Camera.position self)) (half_split w)) H0w)
    as [Hx1 Hx2].
  destruct (proj1 (around_centre (y (Camera.position self))
                     (y (Camera.position self)) (half_split h)) H0h)
    as [Hy1 Hy2].
  assert (forall p q1 q2 : Qc, p <= q1 -> q1 <= q2 -> p <= q2) as tr
    by (intros; eapply Qcle_trans; eassumption).
  split.
  - rewrite (point_is_visible_edges self _ Hl Hr Hb Ht). f_equal.
    apply in_bounds_iff. repeat split; assumption.
  - unfold Camera.top_left, Camera.top_right, Camera.bottom_left,
      Camera.bottom_right.
    rewrite Hl, Hr, Hb, Ht. cbn [rbind].
    do 4 eexists. do 4 (split; [reflexivity|]).
    rewrite !(point_is_visible_edges self _ Hl Hr Hb Ht). cbn [x y].
    repeat split; f_equal; apply in_bounds_iff;
      repeat split; eauto using Qcle_refl.
Qed.

End CameraGeometryMore.

(** * Further properties of the legacy camera *)

Section OldCameraMore.

Implicit Type self : OldCamera.t.

(** X17.  The legacy constructor raises [IndexError] exactly on a viewport with
    fewer than four items; otherwise it returns, whatever the pixel ratio
    (zero included), with the origin, width and height read from the first
    four items, the position at the origin and the offset cache in sync. *)
Theorem old_init_outcome (viewport : list Z) (ratio : Qc) :
  ((length viewport < 4)%nat /\
   OldCamera.__init__ viewport ratio = Raise IndexError)
  \/
  ((4 <= length viewport)%nat /\
   exists self,
     OldCamera.__init__ viewport ratio = Ok self /\
     OldCamera.size self = 0%Z /\
     OldCamera.position self = mkVector 0 0 /\
     OldCamera.viewport_origin self
     = mkVector (of_int (nth 0 viewport 0%Z)) (of_int (nth 1 viewport 0%Z)) /\
     OldCamera.viewport_width self = nth 2 viewport 0%Z /\
     OldCamera.viewport_height self = nth 3 viewport 0%Z /\
     OldCamera.pixel_ratio self = ratio /\
     OldCamera.offset_in_sync self).
Proof.
  destruct viewport as [|v0 [|v1 [|v2 [|v3 rest]]]];
    try (left; split; [cbn; lia | reflexivity]).
  right. split; [cbn; lia|].
  eexists. split; [reflexivity|]. repeat split.
Qed.

(** X18.  With a pixel ratio of zero every frame query of the legacy camera
    raises [ZeroDivisionError]: the frame size, the overlap test and both
    coordinate translations. *)
Theorem zero_ratio_raises self (sprite : Sprite.t) (point : Vector) :
  OldCamera.pixel_ratio self = 0 ->
  OldCamera.frame_width self = Raise ZeroDivisionError /\
  OldCamera.frame_height self = Raise ZeroDivisionError /\
  OldCamera.in_frame self sprite = Raise ZeroDivisionError /\
  OldCamera.translate_to_frame self point = Raise ZeroDivisionError /\
  OldCamera.translate_to_viewport self point = Raise ZeroDivisionError.
Proof.
  intros Hr. destruct (frame_edges_zero_ratio self Hr) as (Hl & _ & _ & _).
  unfold OldCamera.frame_width, OldCamera.frame_height, OldCamera.in_frame,
    OldCamera.translate_to_frame, OldCamera.translate_to_viewport, vdiv,
    and_then.
  rewrite Hl, Hr, !truediv_0. repeat split.
Qed.

End OldCameraMore.

(** Half extents grow with the pixel count, for a positive ratio. *)
Lemma half_extent_mono (a a' k : Qc) :
  0 < k -> a <= a' -> a / k / of_int 2 <= a' / k / of_int 2.
Proof.
  intros Hk Hle.
  assert (k <> 0) as Hne by (intros ->; discriminate Hk).
  assert (a / k / of_int 2 * k * (1 + 1) = a) as H1
    by (rewrite of_int_2; field; split; [exact Hne | apply two_neq_0]).
  assert (a' / k / of_int 2 * k * (1 + 1) = a') as H2
    by (rewrite of_int_2; field; split; [exact Hne | apply two_neq_0]).
  apply Qc_eq_Qeq in H1, H2.
  generalize dependent (a / k / of_int 2). intros h H1.
  generalize dependent (a' / k / of_int 2). intros h' H2.
  qc_to_q. nra.
Qed.

Section OldCameraViewportMore.

Implicit Type self : OldCamera.t.

(** X22.  Widening the viewport of a legacy camera with a positive pixel ratio
    never drops a sprite out of the frame. *)
Theorem widening_keeps_in_frame self (value : Z) (sprite : Sprite.t) :
  0 < OldCamera.pixel_ratio self ->
  (OldCamera.viewport_width self <= value)%Z ->
  OldCamera.in_frame self sprite = Ok true ->
  OldCamera.in_frame (OldCamera.set_viewport_width value self) sprite
  = Ok true.
Proof.
  intros Hk Hle Hin.
  assert (OldCamera.pixel_ratio self <> 0) as Hne
    by (intros E; rewrite E in Hk; discriminate Hk).
  destruct (frame_edges_defined self Hne) as (Hl & Hr & Ht & Hb).
  destruct (frame_edges_defined (OldCamera.set_viewport_width value self) Hne)
    as (Hl' & Hr' & Ht' & Hb').
  rewrite (in_frame_edges self sprite Hl Hr Ht Hb) in Hin.
  injection Hin as Hin. apply overlap_iff in Hin.
  destruct Hin as (H1 & H2 & H3 & H4).
  rewrite (in_frame_edges _ sprite Hl' Hr' Ht' Hb').
  f_equal. apply overlap_iff. cbn.
  pose proof (half_extent_mono Hk (of_int_le Hle)) as Hh.
  unfold OldCamera.viewport_width in *.
  generalize dependent
    (of_int (OldCamera._viewport_width self) / OldCamera.pixel_ratio self
     / of_int 2).
  generalize dependent (of_int value / OldCamera.pixel_ratio self / of_int 2).
  intros h' h Hh H1 H2.
  repeat split; try assumption; qc_to_q; lra.
Qed.

(** X24.  The translation ignores the viewport's origin: when the origin has a
    positive coordinate, the pixel image (0, 0) of the frame's top-left
    corner fails [point_in_viewport]. *)
Theorem shifted_origin_excludes_corner self :
  OldCamera.pixel_ratio self <> 0 ->
  0 < x (OldCamera.viewport_origin self) \/
  0 < y (OldCamera.viewport_origin self) ->
  exists l t,
    OldCamera.frame_left self = Ok l /\ OldCamera.frame_top self = Ok t /\
    OldCamera.translate_to_viewport self (mkVector l t)
    = Ok (mkVector 0 0) /\
    OldCamera.point_in_viewport self (mkVector 0 0) = false.
Proof.
  intros Hne Ho.
  destruct (frame_edges_defined self Hne) as (Hl & _ & Ht & _).
  do 2 eexists. split; [exact Hl|]. split; [exact Ht|]. split.
  - rewrite (translate_to_viewport_edges self _ Hl Ht). cbn [x y].
    do 2 f_equal; ring.
  - unfold OldCamera.point_in_viewport. cbn [x y].
    apply not_true_is_false. rewrite !andb_true_iff, !leb_le.
    intros [[H1 _] [H2 _]].
    destruct Ho as [H|H]; exact (Qclt_not_le _ _ H ltac:(eassumption)).
Qed.

End OldCameraViewportMore.

Lemma set_dimensions_oversized_target_witness :
  exists self',
    Camera.set_width (of_int 1000) Examples.camera_800x600
    = (self', Raise ZeroDivisionError) /\
    Camera.pixel_ratio self' = Some 0%Z /\
    Camera._width self' = Some (of_int 8) /\
    Camera._height self' = Some (of_int 6).
Proof.
  apply (set_dimensions_oversized_target Examples.camera_800x600
           (target := of_int 1000)).
  - cbn. lia.
  - reflexivity.
Defined.

Lemma set_height_oversized_target_witness :
  exists self',
    Camera.set_height (of_int 601) Examples.camera_800x600
    = (self', Raise ZeroDivisionError) /\
    Camera.pixel_ratio self' = Some 0%Z /\
    Camera._width self' = Some (of_int 8) /\
    Camera._height self' = Some (of_int 6).
Proof.
  apply (set_height_oversized_target Examples.camera_800x600
           (target := of_int 601)).
  - cbn. lia.
  - reflexivity.
Defined.

Lemma centre_and_corners_visible_witness :
  Camera.point_is_visible Examples.camera_800x600 (mkVector 0 0) = Ok true /\
  exists tl tr bl br,
    Camera.top_left Examples.camera_800x600 = Ok tl /\
    Camera.top_right Examples.camera_800x600 = Ok tr /\
    Camera.bottom_left Examples.camera_800x600 = Ok bl /\
    Camera.bottom_right Examples.camera_800x600 = Ok br /\
    Camera.point_is_visible Examples.camera_800x600 tl = Ok true /\
    Camera.point_is_visible Examples.camera_800x600 tr = Ok true /\
    Camera.point_is_visible Examples.camera_800x600 bl = Ok true /\
    Camera.point_is_visible Examples.camera_800x600 br = Ok true.
Proof.
  apply (centre_and_corners_visible Examples.camera_800x600
           (w := of_int 8) (h := of_int 6) eq_refl eq_refl).
  - vm_compute. discriminate.
  - vm_compute. discriminate.
Defined.

Lemma flat_camera_ratio : OldCamera.pixel_ratio Examples.flat_camera = 0.
Proof. reflexivity. Qed.

Lemma old_camera_ratio_positive :
  0 < OldCamera.pixel_ratio Examples.old_camera.
Proof. reflexivity. Qed.

Lemma old_camera_touching_in_frame :
  OldCamera.in_frame Examples.old_camera Examples.touching_sprite = Ok true.
Proof.
  destruct (frame_edges_defined Examples.old_camera old_camera_ratio_nonzero)
    as (Hl & Hr & Ht & Hb).
  rewrite (in_frame_edges _ Examples.touching_sprite Hl Hr Ht Hb).
  reflexivity.
Qed.

Lemma zero_ratio_raises_witness :
  OldCamera.frame_width Examples.flat_camera = Raise ZeroDivisionError /\
  OldCamera.frame_height Examples.flat_camera = Raise ZeroDivisionError /\
  OldCamera.in_frame Examples.flat_camera Examples.touching_sprite
  = Raise ZeroDivisionError /\
  OldCamera.translate_to_frame Examples.flat_camera (mkVector 0 0)
  = Raise ZeroDivisionError /\
  OldCamera.translate_to_viewport Examples.flat_camera (mkVector 0 0)
  = Raise ZeroDivisionError.
Proof.
  exact (zero_ratio_raises Examples.flat_camera Examples.touching_sprite
           (mkVector 0 0) flat_camera_ratio).
Defined.

Lemma widening_keeps_in_frame_witness :
  OldCamera.in_frame (OldCamera.set_viewport_width 1000 Examples.old_camera)
    Examples.touching_sprite = Ok true.
Proof.
  apply (widening_keeps_in_frame Examples.old_camera (value := 1000)
           Examples.touching_sprite old_camera_ratio_positive).
  - cbn. lia.
  - exact old_camera_touching_in_frame.
Defined.

Lemma shifted_origin_excludes_corner_witness :
  exists l t,
    OldCamera.frame_left Examples.shifted_camera = Ok l /\
    OldCamera.frame_top Examples.shifted_camera = Ok t /\
    OldCamera.translate_to_viewport Examples.shifted_camera (mkVector l t)
    = Ok (mkVector 0 0) /\
    OldCamera.point_in_viewport Examples.shifted_camera (mkVector 0 0)
    = false.
Proof.
  apply (shifted_origin_excludes_corner Examples.shifted_camera).
  - exact old_camera_ratio_nonzero.
  - left. reflexivity.
Defined.

(** * The dimension solver over binary64 *)
















Section Binary64Solver.

Variable Renderer : Type.
Implicit Type self : Camera64.t Renderer.








End Binary64Solver.

(** ** The binary64 solver on concrete cameras *)

(** C1, at its failing input.  On an 800 x 600 viewport a target width
    of 1000 game units is positive, its quotient is 0.8 and the ratio is
    [int(0.8) = 0].  The constructor raises [ZeroDivisionError]; the
    [width] setter on a solved camera stores [pixel_ratio = 0], raises
    [ZeroDivisionError] at [viewport_width / self.pixel_ratio], and leaves
    the width and the height of the previous solve in place. *)
Theorem oversized_target_divides_by_zero :
  B64.positive (B64.Int 1000) /\
  Camera64.__init__ tt (B64.Int 1000) (800, 600)%Z
  = Raise ZeroDivisionError /\
  Camera64.set_width (B64.Int 1000) Examples.camera64_800x600
  = (Camera64.set_pixel_ratio (Some 0%Z) Examples.camera64_800x600,
     Raise ZeroDivisionError).
Proof. repeat split. Qed.




